(** * SrtmAPI: elevation lookup over a tiled SRTM grid

    A shallow embedding of [src/GetElevations.py] (class [GetElevations]), of
    [src/LoadGeo.py] (class [LoadGeo]) and of [src/Orchestrator.py] (class
    [Orchestrator]), with the properties the specification states about them
    and further properties of the code.

    What the Python code asks of its libraries is written out as follows.
    - A shapely [Point] is its pair of coordinates; the polygons of the grid
      and the predicate "within" are parameters of the development, and so
      is the type of Python floats, on which the code never computes.
    - A [GeoDataFrame] is its reference frame and its rows, in order, under
      the default index 0, 1, 2, ... of a frame built from a list of points
      or read from a vector file; the column ["id"] of the grid holds
      strings.
    - [gpd.sjoin(how="left", predicate="within")] yields, for every left row
      in order, one row per right row that contains it (in right order), or
      one row whose right columns are missing when there is none; a differing
      reference frame makes geopandas warn, never raise.
    - [DataFrame.groupby] yields the groups in ascending key order, drops the
      missing key, and keeps the frame's row order inside a group.
    - [os.path] is the POSIX one; the file system is a parameter.
    - [rasterio.open] succeeds on every path that exists and gives a dataset
      whose [sample] yields, per coordinate and in order, the band values
      under it.
    - What the code prints and every call of [sample] are recorded, in order,
      in a log. *)

From stdpp Require Import base list strings sorting pretty.
From Stdlib Require Import Ascii OrderedTypeEx.

Set Implicit Arguments.

(** ** Exceptions, log and the monad of the methods *)

Inductive exn : Type :=
  | FileNotFoundError (msg : string)
  | IndexError.

Section Model.

(** Python floats, the polygons of the grid, and shapely's [within]. *)
Variable float : Type.
Variable Polygon : Type.

Record Point : Type := { geom_x : float; geom_y : float }.

Variable within : Point → Polygon → bool.

(** One entry of the log: a line printed, or one call of [src.sample] on the
    dataset opened from [name] with the whole batch [batch]. *)
Inductive event : Type :=
  | Printed (line : string)
  | Sample (name : string) (batch : list (float * float)).

(** A computation returns a value or raises, and appends to the log. *)
Definition M (A : Type) : Type := (exn + A) * list event.

Definition ret {A} (a : A) : M A := (inr a, []).
Definition raise {A} (e : exn) : M A := (inl e, []).
Definition emit (ev : event) : M unit := (inr tt, [ev]).
Definition bind {A B} (m : M A) (k : A → M B) : M B :=
  match m with
  | (inl e, l) => (inl e, l)
  | (inr a, l) => let (r, l') := k a in (r, l ++ l')
  end.

Notation "'do' x <- m ; k" := (bind m (fun x => k))
  (at level 10, x name, m at level 100, k at level 200).
Notation "'run' m ; k" := (bind m (fun _ => k))
  (at level 10, m at level 100, k at level 200).

Definition print (line : string) : M unit := emit (Printed line).

(** A [for] loop whose body updates the local state [s]; an exception in the
    body leaves the loop. *)
Fixpoint for_each {A S} (xs : list A) (body : A → S → M S) (s : S) : M S :=
  match xs with
  | [] => ret s
  | a :: rest => do s' <- body a s; for_each rest body s'
  end.

(** [l[i] = v] on a Python list: [IndexError] out of range. *)
Definition setitem {A} (l : list A) (i : nat) (v : A) : M (list A) :=
  if decide (i < length l) then ret (<[i:=v]> l) else raise IndexError.

(** ** Reference frames and frames of rows *)

(** A reference frame is named by its EPSG code. *)
Definition CRS : Type := N.

Record GeoDataFrame (R : Type) : Type := { crs : CRS; rows : list R }.

(** A row of the grid: its extent and the column ["id"]. *)
Record Tile : Type := { tile_geometry : Polygon; tile_id : string }.

(** ** The file system and rasterio *)

(** The band values under a coordinate, band 1 apart from the others. *)
Definition Bands : Type := (float * list float)%type.

Record DatasetReader : Type :=
  { name : string; read : float * float → Bands }.

Record FileSystem : Type :=
  { os_path_isdir : string → bool;
    os_path_exists : string → bool;
    raster_data : string → float * float → Bands }.

Definition rasterio_open (fs : FileSystem) (path : string) : DatasetReader :=
  {| name := path; read := raster_data fs path |}.

(** [src.sample(coords)]: one call, one array of bands per coordinate. *)
Definition sample (src : DatasetReader) (coords : list (float * float))
  : M (list Bands) :=
  run emit (Sample (name src) coords); ret (map (read src) coords).

Definition startswith_sep (s : string) : bool :=
  match s with String c _ => Ascii.eqb c "/"%char | EmptyString => false end.

Fixpoint endswith_sep (s : string) : bool :=
  match s with
  | EmptyString => false
  | String c EmptyString => Ascii.eqb c "/"%char
  | String _ rest => endswith_sep rest
  end.

(** [os.path.join(a, b)] of posixpath. *)
Definition os_path_join (a b : string) : string :=
  if startswith_sep b then b
  else if (String.eqb a "" || endswith_sep a)%bool then a +:+ b
  else a +:+ "/" +:+ b.

(** ** pandas and geopandas *)

Fixpoint enumerate_from {A} (i : nat) (l : list A) : list (nat * A) :=
  match l with
  | [] => []
  | a :: rest => (i, a) :: enumerate_from (S i) rest
  end.

(** A row of the frame [gpd.sjoin] returns: the index label of the left row,
    its geometry, and the column ["id"] of the right row, if any. *)
Record SjoinRow : Type :=
  { index : nat; sj_geometry : Point; sj_id : option string }.

Definition containing (p : Point) (tiles : list Tile) : list Tile :=
  List.filter (fun t => within p (tile_geometry t)) tiles.

Definition sjoin_row (i : nat) (p : Point) (tiles : list Tile) : list SjoinRow :=
  match containing p tiles with
  | [] => [ {| index := i; sj_geometry := p; sj_id := None |} ]
  | ms => map (fun t => {| index := i; sj_geometry := p;
                           sj_id := Some (tile_id t) |}) ms
  end.

Definition sjoin_left_within (left : GeoDataFrame Point)
    (right : GeoDataFrame Tile) : list SjoinRow :=
  flat_map (fun ip => sjoin_row ip.1 ip.2 (rows right))
           (enumerate_from 0 (rows left)).

(** [joined["id"].isna().any()] *)
Definition id_isna_any (joined : list SjoinRow) : bool :=
  existsb (fun r => match sj_id r with None => true | Some _ => false end)
          joined.

(** A row after [reset_index(drop=False).rename(columns={"index":
    "original_index"})]: the old index label is now a column. *)
Record JoinedRow : Type :=
  { original_index : nat; geometry : Point; col_id : option string }.

Definition reset_index (joined : list SjoinRow) : list JoinedRow :=
  map (fun r => {| original_index := index r; geometry := sj_geometry r;
                   col_id := sj_id r |}) joined.

(** The keys of [groupby]: ascending and without repetition. *)
Fixpoint insert_key (k : string) (ks : list string) : list string :=
  match ks with
  | [] => [k]
  | k' :: rest =>
      match String.compare k k' with
      | Lt => k :: ks
      | Eq => ks
      | Gt => k' :: insert_key k rest
      end
  end.

Definition sorted_keys (ids : list (option string)) : list string :=
  foldr (fun o ks => match o with Some k => insert_key k ks | None => ks end)
        [] ids.

Definition has_id (k : string) (r : JoinedRow) : bool :=
  match col_id r with Some k' => String.eqb k k' | None => false end.

Definition groupby_id (joined : list JoinedRow)
  : list (option string * list JoinedRow) :=
  map (fun k => (Some k, List.filter (has_id k) joined))
      (sorted_keys (map col_id joined)).

(** ** GetElevations *)

Record GetElevations : Type :=
  { srtm_reference : GeoDataFrame Tile;
    images_folder : string;
    crs_degrees : N;
    coords : GeoDataFrame Point;
    is_dir : bool }.

Definition __init__ (fs : FileSystem) (srtm_reference : GeoDataFrame Tile)
    (coords : GeoDataFrame Point) (images_folder : string) : GetElevations :=
  {| srtm_reference := srtm_reference;
     images_folder := images_folder;
     crs_degrees := 4326%N;
     coords := coords;
     is_dir := os_path_isdir fs images_folder |}.

Definition value_from_src (coords : list (float * float))
    (src : DatasetReader) : M (list float) :=
  do vals <- sample src coords; ret (map (fun val => val.1) vals).

Definition _process_single_raster (fs : FileSystem) (self : GetElevations)
  : M (list float) :=
  if negb (os_path_exists fs (images_folder self)) then
    raise (FileNotFoundError ("Raster file not found: " +:+ images_folder self))
  else
    let coords_list :=
      map (fun geom => (geom_x geom, geom_y geom)) (rows (coords self)) in
    let src := rasterio_open fs (images_folder self) in
    do values <- value_from_src coords_list src;
    ret values.

Definition unmatched_warning : string :=
  "⚠️ Warning: Some points are not contained within any SRTM grid.".

Definition raster_path_of (folder idx : string) : string :=
  os_path_join folder (idx +:+ ".gpkg").

(** The body of the loop over the groups; [elevations] is the list the loop
    updates in place, [None] its entries not yet written. *)
Definition process_group (fs : FileSystem) (self : GetElevations)
    (group : option string * list JoinedRow)
    (elevations : list (option float)) : M (list (option float)) :=
  let (idx, subset) := group in
  match idx with
  | None => ret elevations
  | Some idx =>
      let raster_path := raster_path_of (images_folder self) idx in
      if negb (os_path_exists fs raster_path) then
        run print ("⚠️ Raster not found: " +:+ raster_path);
        ret elevations
      else
        let coords_list :=
          map (fun r => (geom_x (geometry r), geom_y (geometry r))) subset in
        let src := rasterio_open fs raster_path in
        do vals <- value_from_src coords_list src;
        for_each (zip (map original_index subset) vals)
                 (fun ov elevations => setitem elevations ov.1 (Some ov.2))
                 elevations
  end.

Definition _process_directory (fs : FileSystem) (self : GetElevations)
  : M (list (option float)) :=
  let joined := sjoin_left_within (coords self) (srtm_reference self) in
  run (if id_isna_any joined then print unmatched_warning else ret tt);
  let joined := reset_index joined in
  let elevations := replicate (length joined) None in
  for_each (groupby_id joined) (process_group fs self) elevations.

(** [get]: the values of the single raster are floats, those of the grid
    floats or [None]; both are lists of [option float] here. *)
Definition get (fs : FileSystem) (self : GetElevations)
  : M (list (option float)) :=
  if is_dir self then _process_directory fs self
  else do values <- _process_single_raster fs self; ret (map Some values).

End Model.

Arguments ret {float A} a.
Arguments raise {float A} e.
Arguments setitem {float A} l i v.
Arguments Printed {float} line.
Arguments print {float} line.

(** ** LoadGeo.to_crs *)

Inductive CrsType : Type := meters | degress.

Section LoadGeo.

(** pyproj's [is_geographic], the reprojection of a row between two frames
    and geopandas' [estimate_utm_crs]. *)
Variable R : Type.
Variable is_geographic : CRS → bool.
Variable transform : CRS → CRS → R → R.
Variable estimate_utm_crs : GeoDataFrame R → CRS.

Record LoadGeo : Type :=
  { type : option string; file_path : string; crs_degress : CRS }.

(** [file.to_crs(crs)] of geopandas. *)
Definition gdf_to_crs (file : GeoDataFrame R) (target : CRS) : GeoDataFrame R :=
  {| crs := target; rows := map (transform (crs file) target) (rows file) |}.

Definition find_utm (self : LoadGeo) (point_gframe : GeoDataFrame R) : CRS :=
  estimate_utm_crs point_gframe.

Definition is_vector (self : LoadGeo) : bool :=
  match type self with Some t => String.eqb t "vector" | None => false end.

Definition to_crs (self : LoadGeo) (file : GeoDataFrame R)
    (crs_type : CrsType) : GeoDataFrame R :=
  if is_vector self then
    let geographic := is_geographic (crs file) in
    match crs_type with
    | degress =>
        if negb geographic then gdf_to_crs file (crs_degress self) else file
    | meters =>
        if geographic then
          let crs_utm := find_utm self file in
          gdf_to_crs file crs_utm
        else file
    end
  else file.

End LoadGeo.

(** ** A small grid to run the code on

    Integer coordinates, rectangular tiles with an open interior, and a file
    system with a folder of tile rasters and a single raster. *)

Record Box : Type := { xmin : Z; ymin : Z; xmax : Z; ymax : Z }.

Definition in_box (p : Point Z) (b : Box) : bool :=
  ((xmin b <? geom_x p) && (geom_x p <? xmax b) &&
   (ymin b <? geom_y p) && (geom_y p <? ymax b))%Z.

Definition tile_A : Tile Box :=
  {| tile_geometry := {| xmin := 0; ymin := 0; xmax := 10; ymax := 10 |};
     tile_id := "A" |}.
Definition tile_B : Tile Box :=
  {| tile_geometry := {| xmin := 10; ymin := 0; xmax := 20; ymax := 10 |};
     tile_id := "B" |}.

Definition grid_AB : GeoDataFrame (Tile Box) :=
  {| crs := 4326%N; rows := [tile_A; tile_B] |}.

Definition pt (a b : Z) : Point Z := {| geom_x := a; geom_y := b |}.

Definition points_of (c : CRS) (l : list (Point Z)) : GeoDataFrame (Point Z) :=
  {| crs := c; rows := l |}.

(** The value of band 1 depends on the raster and on the coordinate. *)
Definition demo_data (path : string) (xy : Z * Z) : Bands Z :=
  ((if String.eqb path "images/A.gpkg" then 1000
    else if String.eqb path "images/B.gpkg" then 2000
    else if String.eqb path "images/C.gpkg" then 3000
    else 5000) + 10 * xy.1 + xy.2, [])%Z.

Definition demo_fs (present : list string) : FileSystem Z :=
  {| os_path_isdir := fun p => String.eqb p "images";
     os_path_exists := fun p => existsb (String.eqb p) present;
     raster_data := demo_data |}.

Definition fs_full : FileSystem Z :=
  demo_fs ["images"; "images/A.gpkg"; "images/B.gpkg"; "images/C.gpkg";
           "dem.tif"].
Definition fs_no_B : FileSystem Z :=
  demo_fs ["images"; "images/A.gpkg"; "images/C.gpkg"; "dem.tif"].

Definition resolver (fs : FileSystem Z) (grid : GeoDataFrame (Tile Box))
    (c : CRS) (l : list (Point Z)) (folder : string) : GetElevations Z Box :=
  __init__ fs grid (points_of c l) folder.

(** Three points in the tiles A, B, A of the grid without overlap. *)
Definition run_covered : GetElevations Z Box :=
  resolver fs_full grid_AB 4326%N [pt 2 3; pt 12 4; pt 3 3] "images".
(** Single-resource mode, on a raster that is there and on one that is not. *)
Definition run_single (l : list (Point Z)) : GetElevations Z Box :=
  resolver fs_full grid_AB 4326%N l "dem.tif".
Definition run_single_missing (l : list (Point Z)) : GetElevations Z Box :=
  resolver fs_full grid_AB 4326%N l "nowhere.tif".

(** A loader of vector files and pyproj on three frames: WGS 84 (4326) and
    SIRGAS 2000 (4674) are geographic, UTM 23S (32723) is not. *)
Definition demo_loader : LoadGeo :=
  {| type := Some "vector"; file_path := "points.gpkg"; crs_degress := 4326%N |}.
Definition demo_geographic (c : CRS) : bool :=
  (N.eqb c 4326 || N.eqb c 4674)%bool.
Definition demo_transform (source target : CRS) (p : Point Z) : Point Z := p.
Definition demo_utm (file : GeoDataFrame (Point Z)) : CRS := 32723%N.

(** ** What a run writes and logs, as plain lists *)

Section Trace.

Context {float Polygon : Type}.
Variable fs : FileSystem float.
Variable folder : string.

(** The writes [elevations[i] = v] of a list of pairs, first to last; out of
    range nothing is written here, while [setitem] raises. *)
Definition scatter (ws : list (nat * float)) (e : list (option float))
  : list (option float) :=
  foldl (fun e w => <[w.1 := Some w.2]> e) e ws.

(** Band 1 of the raster of tile [k] under the point [p]. *)
Definition tile_value (k : string) (p : Point float) : float :=
  (raster_data fs (raster_path_of folder k) (geom_x p, geom_y p)).1.

Definition group_batch (subset : list (JoinedRow float)) : list (float * float) :=
  map (fun r => (geom_x (geometry r), geom_y (geometry r))) subset.

Definition group_writes (g : option string * list (JoinedRow float))
  : list (nat * float) :=
  match g.1 with
  | Some k =>
      if os_path_exists fs (raster_path_of folder k)
      then map (fun r => (original_index r, tile_value k (geometry r))) g.2
      else []
  | None => []
  end.

Definition group_events (g : option string * list (JoinedRow float))
  : list (event float) :=
  match g.1 with
  | Some k =>
      if os_path_exists fs (raster_path_of folder k)
      then [Sample (raster_path_of folder k) (group_batch g.2)]
      else [Printed ("⚠️ Raster not found: " +:+ raster_path_of folder k)]
  | None => []
  end.

End Trace.


(** The same rows under another reference frame tag, and the same resolver
    on frames tagged [c_points] and [c_grid]. *)
Definition retag {R} (c : CRS) (frame : GeoDataFrame R) : GeoDataFrame R :=
  {| crs := c; rows := rows frame |}.

Definition with_frames {float Polygon} (c_points c_grid : CRS)
    (self : GetElevations float Polygon) : GetElevations float Polygon :=
  {| srtm_reference := retag c_grid (srtm_reference self);
     images_folder := images_folder self;
     crs_degrees := crs_degrees self;
     coords := retag c_points (coords self);
     is_dir := is_dir self |}.




(** The frame the loop of [_process_directory] runs over. *)
Definition joined_frame {float Polygon} (within : Point float → Polygon → bool)
    (self : GetElevations float Polygon) : list (JoinedRow float) :=
  reset_index (sjoin_left_within within (coords self) (srtm_reference self)).

(** What a row of the joined frame says: the point at its original index and
    one tile that contains it, or the absence of any. *)
Definition row_sound {float Polygon} (within : Point float → Polygon → bool)
    (self : GetElevations float Polygon) (r : JoinedRow float) : Prop :=
  rows (coords self) !! original_index r = Some (geometry r) ∧
  match col_id r with
  | Some k => ∃ t, t ∈ containing within (geometry r) (rows (srtm_reference self))
                   ∧ tile_id t = k
  | None => containing within (geometry r) (rows (srtm_reference self)) = []
  end.


(** The writes and the log of a run of [_process_directory]. *)
Definition directory_writes {float Polygon}
    (within : Point float → Polygon → bool) (fs : FileSystem float)
    (self : GetElevations float Polygon) : list (nat * float) :=
  flat_map (group_writes fs (images_folder self))
           (groupby_id (joined_frame within self)).

Definition directory_result {float Polygon}
    (within : Point float → Polygon → bool) (fs : FileSystem float)
    (self : GetElevations float Polygon) : list (option float) :=
  scatter (directory_writes within fs self)
          (replicate (length (joined_frame within self)) None).

Definition directory_log {float Polygon}
    (within : Point float → Polygon → bool) (fs : FileSystem float)
    (self : GetElevations float Polygon) : list (event float) :=
  (if id_isna_any (sjoin_left_within within (coords self) (srtm_reference self))
   then [Printed unmatched_warning] else [])
  ++ flat_map (group_events fs (images_folder self))
              (groupby_id (joined_frame within self)).


(** The sampler calls of a log, in order, and the number of lines of it that
    are the warning about unmatched points. *)
Definition sampler_calls {float} (log : list (event float))
  : list (string * list (float * float)) :=
  omap (fun ev => match ev with
                  | Sample n b => Some (n, b)
                  | Printed _ => None
                  end) log.



(** ** The log of a run in terms of its inputs *)





(** ** LoadGeo: reading a file

    The readers of geopandas, pandas and json are parameters and are assumed
    to succeed. A frame read from a file may have no reference frame at all,
    and the other readers do not return frames: [to_crs] then fails on the
    attribute it reads. *)

(** The exceptions of the loader and of the orchestrator, next to those of
    [GetElevations]. An [AttributeError] names the attribute that is missing. *)
Inductive py_error : Type :=
  | Raised (e : exn)
  | ValueError (msg : string)
  | AttributeError (attribute : string)
  | TypeError (msg : string).

(** [s.endswith(suffix)] *)
Fixpoint endswith (s suffix : string) : bool :=
  (String.eqb s suffix ||
   match s with
   | String _ rest => endswith rest suffix
   | EmptyString => false
   end)%bool.

Section LoadGeoRead.

Variables R T J : Type.
Variable is_geographic : CRS → bool.
Variable transform : CRS → CRS → R → R.
Variable estimate_utm_crs : GeoDataFrame R → CRS.

(** A GeoDataFrame as a reader returns it: its [crs] may be [None]. *)
Record ReadFrame : Type := { read_crs : option CRS; read_rows : list R }.

(** What [just_read] returns: a GeoDataFrame, a pandas DataFrame, a parsed
    JSON document or the text of the file. *)
Inductive PyObject : Type :=
  | OfFrame (frame : ReadFrame)
  | OfTable (table : T)
  | OfJson (document : J)
  | OfText (text : string).

Record Disk : Type :=
  { gpd_read_file : string → ReadFrame;
    gpd_read_parquet : string → ReadFrame;
    pd_read_excel : string → T;
    pd_read_csv : string → T;
    json_load : string → J;
    open_read : string → string }.

Definition LoadGeo__init__ (file_path : string) (crs_degress : CRS) : LoadGeo :=
  {| type := None; file_path := file_path; crs_degress := crs_degress |}.

(** [self.type = t] *)
Definition set_type (self : LoadGeo) (t : string) : LoadGeo :=
  {| type := Some t; file_path := file_path self;
     crs_degress := crs_degress self |}.

(** [just_read] returns what it read, or raises, and the loader as it has
    updated it. *)
Definition just_read (disk : Disk) (self : LoadGeo)
  : (py_error + PyObject) * LoadGeo :=
  let path := file_path self in
  if (endswith path ".geojson" || endswith path ".shp"
      || endswith path ".gpkg")%bool then
    (inr (OfFrame (gpd_read_file disk path)), set_type self "vector")
  else if endswith path ".parquet" then
    (inr (OfFrame (gpd_read_parquet disk path)), set_type self "vector")
  else if endswith path ".xlsx" then
    (inr (OfTable (pd_read_excel disk path)), set_type self "vector")
  else if endswith path ".csv" then
    (inr (OfTable (pd_read_csv disk path)), set_type self "vector")
  else if endswith path ".json" then
    (inr (OfJson (json_load disk path)), set_type self "vector")
  else if endswith path ".txt" then
    (inr (OfText (open_read disk path)), set_type self "vector")
  else (inl (ValueError "Unsupported file format."), self).

Definition frame_of (c : CRS) (frame : ReadFrame) : GeoDataFrame R :=
  {| crs := c; rows := read_rows frame |}.

Definition read_of (frame : GeoDataFrame R) : ReadFrame :=
  {| read_crs := Some (crs frame); read_rows := rows frame |}.

(** [to_crs] on whatever [just_read] returned: with [self.type] set, it reads
    [file.crs.is_geographic] first. *)
Definition to_crs_object (self : LoadGeo) (file : PyObject)
    (crs_type : CrsType) : py_error + PyObject :=
  if is_vector self then
    match file with
    | OfFrame frame =>
        match read_crs frame with
        | Some c =>
            inr (OfFrame (read_of (to_crs is_geographic transform
                                          estimate_utm_crs self
                                          (frame_of c frame) crs_type)))
        | None => inl (AttributeError "is_geographic")
        end
    | OfTable _ | OfJson _ | OfText _ => inl (AttributeError "crs")
    end
  else inr file.

(** [load]; the [crs_type] ["default"] is [None]. *)
Definition load (disk : Disk) (self : LoadGeo) (crs_type : option CrsType)
  : (py_error + PyObject) * LoadGeo :=
  let (file, self) := just_read disk self in
  match file with
  | inl e => (inl e, self)
  | inr file =>
      match crs_type with
      | Some crs_type => (to_crs_object self file crs_type, self)
      | None => (inr file, self)
      end
  end.

(** The formats [just_read] reads as a GeoDataFrame, and the others it
    accepts. *)
Definition reads_as_frame (path : string) : bool :=
  (endswith path ".geojson" || endswith path ".shp" || endswith path ".gpkg"
   || endswith path ".parquet")%bool.

Definition reads_as_other (path : string) : bool :=
  (endswith path ".xlsx" || endswith path ".csv" || endswith path ".json"
   || endswith path ".txt")%bool.

(** The frame [just_read] reads at a path of [reads_as_frame]. *)
Definition frame_at (disk : Disk) (path : string) : ReadFrame :=
  if (endswith path ".geojson" || endswith path ".shp"
      || endswith path ".gpkg")%bool
  then gpd_read_file disk path else gpd_read_parquet disk path.

End LoadGeoRead.

Arguments OfTable {R T J} table.
Arguments OfJson {R T J} document.
Arguments OfText {R T J} text.
Arguments OfFrame {R T J} frame.

(** ** Orchestrator

    The grid file holds tiles and a file of coordinates holds points; the
    two are read by a reader each. [to_file] is assumed to succeed; what it
    writes, the folder [os.makedirs] creates and what [get] logs are the
    effects of a call, in order. *)

Section Orchestrator.

Context {float Polygon T J : Type}.
Variable within : Point float → Polygon → bool.
Variable is_geographic : CRS → bool.
Variable transform_tile : CRS → CRS → Tile Polygon → Tile Polygon.
Variable transform_point : CRS → CRS → Point float → Point float.
Variable utm_of_grid : GeoDataFrame (Tile Polygon) → CRS.
Variable utm_of_points : GeoDataFrame (Point float) → CRS.

Record World : Type :=
  { THIS_PATH : string;
    files : FileSystem float;
    grid_disk : Disk (Tile Polygon) T J;
    point_disk : Disk (Point float) T J }.

Inductive effect : Type :=
  | Emitted (ev : event float)
  | MakeDirs (path : string)
  | ToFile (path : string) (frame : GeoDataFrame (Point float))
           (column : string) (values : list (option float)).

Record Orchestrator : Type :=
  { api : bool;
    output_path : string;
    name_output : string;
    srtm_path : string;
    orch_images_folder : string }.

(** [Orchestrator(api, output_path, name_output)]: the object and the effect
    of [os.makedirs(output_path, exist_ok=True)]. *)
Definition Orchestrator__init__ (w : World) (api : bool)
    (output_path name_output : string) : Orchestrator * list effect :=
  ({| api := api;
      output_path := output_path;
      name_output := name_output;
      srtm_path := os_path_join (os_path_join (THIS_PATH w) "files") "SRTM.gpkg";
      orch_images_folder :=
        os_path_join (os_path_join (THIS_PATH w) "files") "images" |},
   if String.eqb output_path "" then [] else [MakeDirs output_path]).

(** The argument of [process]: a path, or a dict whose key ["geometry"], if
    it has it, holds a list of coordinate pairs. *)
Inductive CoordsJson : Type :=
  | OfPath (path : string)
  | OfDict (geometry : option (list (float * float))).

Definition _load_data (w : World) (self : Orchestrator) (coords_json : CoordsJson)
  : py_error + (PyObject (Tile Polygon) T J * PyObject (Point float) T J) :=
  match (load is_geographic transform_tile utm_of_grid (grid_disk w)
              (LoadGeo__init__ (srtm_path self) 4326%N) (Some degress)).1 with
  | inl e => inl e
  | inr srtm =>
      match coords_json with
      | OfPath path =>
          match (load is_geographic transform_point utm_of_points (point_disk w)
                      (LoadGeo__init__ path 4326%N) (Some degress)).1 with
          | inl e => inl e
          | inr coords => inr (srtm, coords)
          end
      | OfDict None => inl (TypeError "'NoneType' object is not iterable")
      | OfDict (Some coords_dict) =>
          inr (srtm,
               OfFrame {| read_crs := Some 4326%N;
                          read_rows := map (fun xy => {| geom_x := xy.1;
                                                         geom_y := xy.2 |})
                                           coords_dict |})
      end
  end.

Definition _save_output (self : Orchestrator) (coords_gdf : GeoDataFrame (Point float))
    (elevations : list (option float)) : list effect :=
  let out_file := os_path_join (output_path self)
                               (name_output self +:+ ".geojson") in
  [ToFile out_file coords_gdf (name_output self) elevations;
   Emitted (Printed ("Saved elevations to: " +:+ out_file))].

(** The frame an object is, as [GetElevations] uses it. After a load with a
    conversion the object is a frame with a reference frame, so that the
    errors here are never met in [process]. *)
Definition as_frame {R} (obj : PyObject R T J) : py_error + GeoDataFrame R :=
  match obj with
  | OfFrame frame =>
      match read_crs frame with
      | Some c => inr (frame_of c frame)
      | None => inl (AttributeError "is_geographic")
      end
  | OfTable _ | OfJson _ | OfText _ => inl (AttributeError "geometry")
  end.

(** [coords[name] = elevations] of pandas: the lengths must agree. *)
Definition length_mismatch (values index : nat) : py_error :=
  ValueError ("Length of values (" +:+ pretty values
              +:+ ") does not match length of index (" +:+ pretty index +:+ ")").

(** [process] returns the elevations in API mode and [None] otherwise, or
    raises. *)
Definition process (w : World) (self : Orchestrator) (coords_json : CoordsJson)
  : (py_error + option (list (option float))) * list effect :=
  match _load_data w self coords_json with
  | inl e => (inl e, [])
  | inr (srtm, coords) =>
      match as_frame srtm, as_frame coords with
      | inl e, _ => (inl e, [])
      | inr _, inl e => (inl e, [])
      | inr srtm, inr coords =>
          let get_elev := __init__ (files w) srtm coords (orch_images_folder self) in
          match get within (files w) get_elev with
          | (inl e, log) => (inl (Raised e), map Emitted log)
          | (inr elevations, log) =>
              if api self then (inr (Some elevations), map Emitted log)
              else if decide (length elevations = length (rows coords)) then
                (inr None, map Emitted log ++ _save_output self coords elevations)
              else
                (inl (length_mismatch (length elevations) (length (rows coords))),
                 map Emitted log)
          end
      end
  end.

End Orchestrator.

Arguments Emitted {float} ev.
Arguments MakeDirs {float} path.
Arguments OfPath {float} path.

(** ** An installation to run the loader and the orchestrator on

    The application lives in [/srv/app]; its grid file holds [grid_AB] or
    [grid_ABC], tagged 4326; the file of coordinates [points.gpkg] holds two
    points tagged 4674, [site.shp] one point within [tile_A] and [tile_C]
    and no reference frame at all is in [bare.shp]. *)

Definition app_data (path : string) (xy : Z * Z) : Bands Z :=
  (10 * xy.1 + xy.2, [])%Z.

Definition app_fs : FileSystem Z :=
  {| os_path_isdir := fun p => String.eqb p "/srv/app/files/images";
     os_path_exists := fun p =>
       existsb (String.eqb p)
               ["/srv/app/files/images"; "/srv/app/files/images/A.gpkg";
                "/srv/app/files/images/B.gpkg"; "/srv/app/files/images/C.gpkg"];
     raster_data := app_data |}.

Definition no_frame {R} : ReadFrame R := {| read_crs := None; read_rows := [] |}.

Definition grid_disk_of (grid : GeoDataFrame (Tile Box)) : Disk (Tile Box) unit unit :=
  {| gpd_read_file := fun _ => read_of grid;
     gpd_read_parquet := fun _ => no_frame;
     pd_read_excel := fun _ => tt;
     pd_read_csv := fun _ => tt;
     json_load := fun _ => tt;
     open_read := fun _ => "" |}.

Definition demo_point_disk : Disk (Point Z) unit unit :=
  {| gpd_read_file := fun path =>
       if String.eqb path "points.gpkg"
       then read_of (points_of 4674%N [pt 2 3; pt 12 4])
       else if String.eqb path "site.shp"
       then read_of (points_of 4326%N [pt 7 3])
       else no_frame;
     gpd_read_parquet := fun _ => no_frame;
     pd_read_excel := fun _ => tt;
     pd_read_csv := fun _ => tt;
     json_load := fun _ => tt;
     open_read := fun _ => "" |}.

Definition app_world (grid : GeoDataFrame (Tile Box)) : @World Z Box unit unit :=
  {| THIS_PATH := "/srv/app";
     files := app_fs;
     grid_disk := grid_disk_of grid;
     point_disk := demo_point_disk |}.

Definition tile_transform (source target : CRS) (t : Tile Box) : Tile Box := t.
Definition grid_utm (grid : GeoDataFrame (Tile Box)) : CRS := 32723%N.

Definition app_load_data (grid : GeoDataFrame (Tile Box)) (self : Orchestrator)
    (coords_json : @CoordsJson Z) :=
  _load_data demo_geographic tile_transform demo_transform grid_utm demo_utm
             (app_world grid) self coords_json.

Definition app_process (grid : GeoDataFrame (Tile Box)) (self : Orchestrator)
    (coords_json : @CoordsJson Z) :=
  process in_box demo_geographic tile_transform demo_transform grid_utm demo_utm
          (app_world grid) self coords_json.

(** An orchestrator that saves under [out], as [__init__] builds it. *)
Definition saver (grid : GeoDataFrame (Tile Box)) : Orchestrator :=
  (Orchestrator__init__ (app_world grid) false "out" "elevation").1.

(** * Properties *)

Section Properties.

Context {float Polygon : Type}.
Variable within : Point float → Polygon → bool.

Implicit Types (fs : FileSystem float) (self : GetElevations float Polygon).
Implicit Types (e : list (option float)) (ws : list (nat * float)).
Implicit Types (p : Point float) (t : Tile Polygon) (k : string) (i : nat).

(** ** Membership in the list functions of the embedding *)

Lemma elem_of_map {A B} (f : A → B) (l : list A) (y : B) :
  y ∈ map f l ↔ ∃ x, y = f x ∧ x ∈ l.
Proof.
  rewrite list_elem_of_In, in_map_iff. split.
  - intros (x & <- & Hx). exists x. rewrite list_elem_of_In. auto.
  - intros (x & -> & Hx). exists x. rewrite <- list_elem_of_In. auto.
Qed.

Lemma elem_of_flat_map {A B} (f : A → list B) (l : list A) (y : B) :
  y ∈ flat_map f l ↔ ∃ x, x ∈ l ∧ y ∈ f x.
Proof.
  rewrite list_elem_of_In, in_flat_map. split.
  - intros (x & Hx & Hy). exists x. rewrite !list_elem_of_In. auto.
  - intros (x & Hx & Hy). exists x. rewrite <- !list_elem_of_In. auto.
Qed.

Lemma elem_of_bfilter {A} (f : A → bool) (l : list A) (x : A) :
  x ∈ List.filter f l ↔ x ∈ l ∧ f x = true.
Proof. rewrite !list_elem_of_In. apply filter_In. Qed.

Lemma elem_of_enumerate_from {A} (l : list A) n i (a : A) :
  (i, a) ∈ enumerate_from n l ↔ ∃ j, i = n + j ∧ l !! j = Some a.
Proof.
  revert n. induction l as [|b l IH]; intros n; cbn [enumerate_from].
  - split; [intros H; inversion H|intros (j & _ & H); discriminate H].
  - rewrite elem_of_cons, IH. split.
    + intros [Heq|(j & -> & Hj)].
      * inversion Heq; subst. exists 0. split; [lia|reflexivity].
      * exists (S j). split; [lia|exact Hj].
    + intros ([|j] & -> & Hj).
      * left. cbn in Hj. inversion Hj. f_equal. lia.
      * right. exists j. split; [lia|exact Hj].
Qed.

(** ** The spatial join *)

Lemma elem_of_sjoin_row i p (tiles : list (Tile Polygon)) (r : SjoinRow float) :
  r ∈ sjoin_row within i p tiles ↔
  index r = i ∧ sj_geometry r = p ∧
  match sj_id r with
  | Some k => ∃ t, t ∈ containing within p tiles ∧ tile_id t = k
  | None => containing within p tiles = []
  end.
Proof.
  unfold sjoin_row. destruct (containing within p tiles) as [|t0 ts] eqn:Hc.
  - rewrite list_elem_of_singleton. split.
    + intros ->. cbn. auto.
    + destruct r as [i' p' [k|]]; cbn; intros (-> & -> & H).
      * destruct H as (t & Ht & _). inversion Ht.
      * reflexivity.
  - rewrite elem_of_map. split.
    + intros (t & -> & Ht). cbn. eauto.
    + destruct r as [i' p' [k|]]; cbn; intros (-> & -> & H).
      * destruct H as (t & Ht & <-). exists t. auto.
      * discriminate H.
Qed.

Lemma elem_of_joined_frame self (r : JoinedRow float) :
  r ∈ joined_frame within self ↔ row_sound within self r.
Proof.
  unfold joined_frame, reset_index, sjoin_left_within, row_sound.
  rewrite elem_of_map. split.
  - intros (sr & -> & Hsr). cbn.
    apply elem_of_flat_map in Hsr as ([i p] & Hip & Hsr).
    apply elem_of_enumerate_from in Hip as (j & -> & Hj).
    apply elem_of_sjoin_row in Hsr as (-> & -> & Hid). cbn. auto.
  - destruct r as [i p o]. cbn. intros [Hi Hid].
    exists {| index := i; sj_geometry := p; sj_id := o |}. split; [reflexivity|].
    apply elem_of_flat_map. exists (i, p). split.
    + apply elem_of_enumerate_from. exists i. auto.
    + apply elem_of_sjoin_row. cbn. auto.
Qed.

Lemma sjoin_row_length i p (tiles : list (Tile Polygon)) :
  length (sjoin_row within i p tiles)
  = Nat.max 1 (length (containing within p tiles)).
Proof.
  unfold sjoin_row. destruct (containing within p tiles) as [|t0 ts]; [reflexivity|].
  rewrite length_map. cbn. reflexivity.
Qed.

Lemma sjoin_from_length n (ps : list (Point float)) (tiles : list (Tile Polygon)) :
  length (flat_map (fun ip => sjoin_row within ip.1 ip.2 tiles)
                   (enumerate_from n ps))
  = list_sum (map (fun p => Nat.max 1 (length (containing within p tiles))) ps).
Proof.
  revert n. induction ps as [|p ps IH]; intros n; [reflexivity|].
  cbn [enumerate_from flat_map map list_sum]. rewrite length_app, IH.
  cbn [fst snd]. rewrite sjoin_row_length. reflexivity.
Qed.

(** One row per point and containing tile, and one per point without any. *)
Lemma joined_frame_length self :
  length (joined_frame within self)
  = list_sum (map (fun p => Nat.max 1 (length (containing within p
                                 (rows (srtm_reference self)))))
                  (rows (coords self))).
Proof.
  unfold joined_frame, reset_index, sjoin_left_within. rewrite length_map.
  apply sjoin_from_length.
Qed.

Lemma joined_frame_length_ge self :
  length (rows (coords self)) ≤ length (joined_frame within self).
Proof.
  rewrite joined_frame_length.
  induction (rows (coords self)) as [|p ps IH]; [reflexivity|].
  unfold list_sum in *. cbn -[Nat.max]. lia.
Qed.

Lemma joined_frame_in_range self (r : JoinedRow float) :
  r ∈ joined_frame within self →
  original_index r < length (joined_frame within self).
Proof.
  intros Hr. apply elem_of_joined_frame in Hr as [Hr _].
  apply lookup_lt_Some in Hr. pose proof (joined_frame_length_ge self). lia.
Qed.

(** ** The groups *)




Lemma elem_of_insert_key k ks k' :
  k' ∈ insert_key k ks ↔ k' = k ∨ k' ∈ ks.
Proof.
  induction ks as [|k0 ks IH]; cbn [insert_key].
  - rewrite list_elem_of_singleton. split; [auto|]. intros [?|H]; [auto|inversion H].
  - destruct (String.compare k k0) eqn:Hc.
    + apply String.compare_eq_iff in Hc as ->. rewrite elem_of_cons. tauto.
    + rewrite elem_of_cons. tauto.
    + rewrite !elem_of_cons, IH. tauto.
Qed.


Lemma elem_of_sorted_keys (ids : list (option string)) k :
  k ∈ sorted_keys ids ↔ Some k ∈ ids.
Proof.
  induction ids as [|[k0|] ids IH]; cbn [sorted_keys foldr].
  - split; intros H; inversion H.
  - rewrite elem_of_insert_key, elem_of_cons. fold (sorted_keys ids).
    rewrite IH. split; (intros [H|H]; [left; congruence|right; exact H]).
  - fold (sorted_keys ids). rewrite IH, elem_of_cons.
    split; [auto|]. intros [H|H]; [discriminate H|exact H].
Qed.



Lemma has_id_true k (r : JoinedRow float) :
  has_id k r = true ↔ col_id r = Some k.
Proof.
  unfold has_id. destruct (col_id r) as [k'|].
  - rewrite String.eqb_eq. split; congruence.
  - split; discriminate.
Qed.

(** A row is in the group of [k] when it is a row of the frame with id [k]. *)
Lemma elem_of_group k (joined : list (JoinedRow float)) (r : JoinedRow float) :
  r ∈ List.filter (has_id k) joined ↔ r ∈ joined ∧ col_id r = Some k.
Proof. rewrite elem_of_bfilter, has_id_true. reflexivity. Qed.

Lemma elem_of_groupby_id (joined : list (JoinedRow float)) g :
  g ∈ groupby_id joined ↔
  ∃ k, g = (Some k, List.filter (has_id k) joined)
       ∧ ∃ r, r ∈ joined ∧ col_id r = Some k.
Proof.
  unfold groupby_id. rewrite elem_of_map.
  split; intros (k & -> & Hk); exists k; (split; [reflexivity|]).
  - apply elem_of_sorted_keys, elem_of_map in Hk as (r & Hr & Hin). eauto.
  - destruct Hk as (r & Hin & Hr). apply elem_of_sorted_keys, elem_of_map. eauto.
Qed.

(** ** The monad *)

Lemma bind_inr {A B} (m : M float A) (k : A → M float B) a l r l' l'' :
  m = (inr a, l) → k a = (r, l') → l'' = l ++ l' → bind m k = (r, l'').
Proof. intros -> H ->. unfold bind. rewrite H. reflexivity. Qed.

Lemma bind_silent {A B} (m : M float A) (k : A → M float B) a :
  m = (inr a, []) → bind m k = k a.
Proof. intros ->. unfold bind. destruct (k a). reflexivity. Qed.

(** ** Scattering writes *)

Lemma scatter_app ws1 ws2 e :
  scatter (ws1 ++ ws2) e = scatter ws2 (scatter ws1 e).
Proof. unfold scatter. apply foldl_app. Qed.

Lemma scatter_cons w ws e :
  scatter (w :: ws) e = scatter ws (<[w.1 := Some w.2]> e).
Proof. reflexivity. Qed.

Lemma scatter_length ws e : length (scatter ws e) = length e.
Proof.
  revert e. induction ws as [|w ws IH]; intros e; [reflexivity|].
  rewrite scatter_cons, IH. apply length_insert.
Qed.




(** ** The loops *)

Lemma for_each_setitem ws e :
  Forall (fun w => w.1 < length e) ws →
  for_each (float:=float) ws (fun ov e => setitem e ov.1 (Some ov.2)) e
  = (inr (scatter ws e), []).
Proof.
  revert e. induction ws as [|w ws IH]; intros e Hws; [reflexivity|].
  apply Forall_cons in Hws as [Hw Hws]. cbn [for_each].
  rewrite (bind_silent _ (a:=<[w.1 := Some w.2]> e)).
  - rewrite scatter_cons. apply IH. eapply Forall_impl; [exact Hws|].
    intros w' Hw'. rewrite length_insert. exact Hw'.
  - unfold setitem. rewrite decide_True by assumption. reflexivity.
Qed.

Lemma value_from_src_run (batch : list (float * float)) (src : DatasetReader float) :
  value_from_src batch src
  = (inr (map (fun c => (read src c).1) batch), [Sample (name src) batch]).
Proof.
  unfold value_from_src, sample, bind, emit, ret. cbn.
  rewrite map_map. reflexivity.
Qed.

Lemma zip_map_same {A B C} (f : A → B) (g : A → C) (l : list A) :
  zip (map f l) (map g l) = map (fun a => (f a, g a)) l.
Proof. induction l as [|a l IH]; [reflexivity|]. cbn. rewrite IH. reflexivity. Qed.

(** One iteration of the loop over the groups: the writes and the log line
    of the group, provided the group's indices are in range. *)
Lemma process_group_run fs self g e :
  Forall (fun r => original_index r < length e) g.2 →
  process_group fs self g e
  = (inr (scatter (group_writes fs (images_folder self) g) e),
     group_events fs (images_folder self) g).
Proof.
  destruct g as [[k|] subset]; intros Hrange; [|reflexivity].
  unfold process_group, group_writes, group_events. cbn [fst snd].
  destruct (os_path_exists fs (raster_path_of (images_folder self) k)) eqn:Hex;
    cbn [negb]; [|reflexivity].
  eapply bind_inr; [apply value_from_src_run| |reflexivity].
  cbn [name read rasterio_open]. rewrite map_map, zip_map_same.
  apply for_each_setitem. apply Forall_map.
  eapply Forall_impl; [exact Hrange|]. intros r Hr. exact Hr.
Qed.

Lemma for_each_groups fs self gs e :
  Forall (fun g => Forall (fun r => original_index r < length e) g.2) gs →
  for_each gs (process_group fs self) e
  = (inr (scatter (flat_map (group_writes fs (images_folder self)) gs) e),
     flat_map (group_events fs (images_folder self)) gs).
Proof.
  revert e. induction gs as [|g gs IH]; intros e Hgs; [reflexivity|].
  apply Forall_cons in Hgs as [Hg Hgs]. cbn [for_each flat_map].
  rewrite scatter_app.
  eapply bind_inr; [apply process_group_run; exact Hg| |reflexivity].
  apply IH. eapply Forall_impl; [exact Hgs|]. intros g' Hg'.
  rewrite scatter_length. exact Hg'.
Qed.

(** ** The run of [_process_directory] in closed form *)

Lemma cond_print_run (b : bool) line :
  (if b then print line else ret tt)
  = (inr tt, if b then [Printed (float:=float) line] else []).
Proof. destruct b; reflexivity. Qed.

Lemma process_directory_run fs self :
  _process_directory within fs self
  = (inr (directory_result within fs self), directory_log within fs self).
Proof.
  unfold _process_directory, directory_log, directory_result, directory_writes.
  fold (joined_frame within self).
  eapply bind_inr; [apply cond_print_run| |reflexivity].
  rewrite for_each_groups; [reflexivity|].
  - apply Forall_forall. intros g Hg.
    apply elem_of_groupby_id in Hg as (k & -> & _). cbn [snd].
    apply Forall_forall. intros r Hr. apply elem_of_group in Hr as [Hr _].
    rewrite length_replicate. apply joined_frame_in_range. exact Hr.
Qed.



(** ** What is read at an index of the result *)










(** ** The log *)








(** ** Multi-tile mode *)

Lemma get_directory fs self :
  is_dir self = true →
  get within fs self
  = (inr (directory_result within fs self), directory_log within fs self).
Proof. intros Hdir. unfold get. rewrite Hdir. apply process_directory_run. Qed.










Lemma lookup_map {A B} (f : A → B) (l : list A) j :
  map f l !! j = f <$> (l !! j).
Proof. exact (list_lookup_fmap f l j). Qed.









(** ** Reference frames *)

(** C6, as amended. The resolver never compares the reference frames of
    its two inputs: the outcome of [get] is the same whatever their tags,
    and in multi-tile mode it is a result, not an exception. The loader
    reprojects to degrees only a dataset whose frame is not geographic: a
    dataset in any geographic frame keeps its tag. *)
Theorem C6_frames_are_not_compared fs self (c_points c_grid : CRS)
    {R : Type} (geographic : CRS → bool) (transform : CRS → CRS → R → R)
    (estimate_utm_crs : GeoDataFrame R → CRS)
    (loader : LoadGeo) (file : GeoDataFrame R) :
  is_dir self = true →
  geographic (crs file) = true →
  get within fs (with_frames c_points c_grid self) = get within fs self ∧
  (∃ res log, get within fs (with_frames c_points c_grid self) = (inr res, log)) ∧
  to_crs geographic transform estimate_utm_crs loader file degress = file.
Proof.
  intros Hdir Hgeo. split; [reflexivity|]. split.
  - exists (directory_result within fs self), (directory_log within fs self).
    change (get within fs self = (inr (directory_result within fs self),
                                  directory_log within fs self)).
    apply get_directory. exact Hdir.
  - unfold to_crs. rewrite Hgeo. destruct (is_vector loader); reflexivity.
Qed.

(** ** Empty input and single-resource mode *)

(** C8, as amended. For an empty sequence of points [get] returns the empty
    list and prints nothing, in multi-tile mode and, when the raster exists,
    in single-resource mode. In multi-tile mode the sampler is not called;
    in single-resource mode it is called once, with an empty batch. *)
Theorem C8_empty_input fs self :
  rows (coords self) = [] →
  is_dir self = true ∨ os_path_exists fs (images_folder self) = true →
  get within fs self
  = (inr [], if is_dir self then [] else [Sample (images_folder self) []]).
Proof.
  intros Hempty Hmode. unfold get. destruct (is_dir self).
  - unfold _process_directory, sjoin_left_within. rewrite Hempty. reflexivity.
  - destruct Hmode as [Hmode|Hex]; [discriminate Hmode|].
    unfold _process_single_raster. rewrite Hex, Hempty. reflexivity.
Qed.

(** C9. In single-resource mode, the raster being there, [get] calls the
    sampler once, on that raster, with the coordinates of all the points in
    their order, whatever the grid; it returns one entry per point, the
    entry of a point being the value the call returned at its position. *)
Theorem C9_single_raster_one_call fs self :
  is_dir self = false →
  os_path_exists fs (images_folder self) = true →
  let batch := map (fun p => (geom_x p, geom_y p)) (rows (coords self)) in
  ∃ vals,
    value_from_src batch (rasterio_open fs (images_folder self))
    = (inr vals, [Sample (images_folder self) batch]) ∧
    get within fs self = (inr (map Some vals), [Sample (images_folder self) batch]) ∧
    length vals = length (rows (coords self)) ∧
    ∀ i p, rows (coords self) !! i = Some p →
      vals !! i
      = Some (raster_data fs (images_folder self) (geom_x p, geom_y p)).1.
Proof.
  intros Hdir Hex batch.
  exists (map (fun c => (raster_data fs (images_folder self) c).1) batch).
  split; [apply value_from_src_run|]. split; [|split].
  - unfold get, _process_single_raster. rewrite Hdir, Hex. cbn [negb].
    eapply bind_inr;
      [eapply bind_inr; [apply value_from_src_run|reflexivity|reflexivity]
      |reflexivity|reflexivity].
  - unfold batch. rewrite !length_map. reflexivity.
  - intros i p Hp. unfold batch. rewrite !lookup_map, Hp. reflexivity.
Qed.

(** C10. In single-resource mode, when the path of the raster does not
    exist, [get] raises [FileNotFoundError] for every sequence of points,
    the empty one included, and neither samples nor prints. *)
Theorem C10_single_raster_missing fs self :
  is_dir self = false →
  os_path_exists fs (images_folder self) = false →
  get within fs self
  = (inl (FileNotFoundError ("Raster file not found: " +:+ images_folder self)),
     []).
Proof.
  intros Hdir Hex. unfold get, _process_single_raster. rewrite Hdir, Hex.
  reflexivity.
Qed.

(** ** Further properties of multi-tile mode *)













(** ** Single-resource mode against multi-tile mode *)






(** ** The raster file of a tile id *)

Lemma string_app_length (a b : string) :
  String.length (a +:+ b) = String.length a + String.length b.
Proof.
  induction a as [|c a IH]; [reflexivity|].
  change (S (String.length (a +:+ b)) = S (String.length a + String.length b)).
  rewrite IH. reflexivity.
Qed.

Lemma string_app_cons c (a b : string) : String c a +:+ b = String c (a +:+ b).
Proof. reflexivity. Qed.

Lemma string_app_inv_head (a b1 b2 : string) : a +:+ b1 = a +:+ b2 → b1 = b2.
Proof.
  induction a as [|c a IH]; intros H; [exact H|].
  rewrite !string_app_cons in H. injection H as H. apply IH. exact H.
Qed.

Lemma string_app_inv_tail (a1 a2 b : string) : a1 +:+ b = a2 +:+ b → a1 = a2.
Proof.
  revert a2. induction a1 as [|c a1 IH]; intros [|c2 a2] H.
  - reflexivity.
  - apply (f_equal String.length) in H.
    rewrite !string_app_length in H. cbn in H. lia.
  - apply (f_equal String.length) in H.
    rewrite !string_app_length in H. cbn in H. lia.
  - rewrite !string_app_cons in H. injection H as -> H. f_equal. apply IH. exact H.
Qed.

Lemma startswith_sep_gpkg k :
  startswith_sep (k +:+ ".gpkg") = startswith_sep k.
Proof. destruct k; reflexivity. Qed.

(** Two tile ids that both start with a slash, or both do not, have the same
    raster file only if they are the same id: the groups of two such ids
    never read, nor miss, the same file. *)
Theorem raster_path_of_injective folder k1 k2 :
  startswith_sep k1 = startswith_sep k2 →
  raster_path_of folder k1 = raster_path_of folder k2 →
  k1 = k2.
Proof.
  unfold raster_path_of, os_path_join. rewrite !startswith_sep_gpkg.
  intros <-. destruct (startswith_sep k1).
  - apply string_app_inv_tail.
  - destruct (String.eqb folder "" || endswith_sep folder)%bool; intros H.
    + apply string_app_inv_head in H. apply string_app_inv_tail in H. exact H.
    + apply string_app_inv_head, string_app_inv_head in H.
      apply string_app_inv_tail in H. exact H.
Qed.

(** ** The exceptions of [get] *)


End Properties.

(** * Properties of the loader *)

Section LoadGeoProperties.

Context {R T J : Type}.
Variable is_geographic : CRS → bool.
Variable transform : CRS → CRS → R → R.
Variable estimate_utm_crs : GeoDataFrame R → CRS.

(** [to_crs] normalises: on a loader of vector data whose frame of degrees
    is geographic, and with projected UTM estimates, the frame returned is
    geographic for ["degress"] and projected for ["meters"], has as many rows
    as the frame given, and converting it again changes nothing. *)
Theorem to_crs_normalizes (self : LoadGeo) (file : GeoDataFrame R)
    (crs_type : CrsType) :
  is_vector self = true →
  is_geographic (crs_degress self) = true →
  (∀ frame, is_geographic (estimate_utm_crs frame) = false) →
  let out := to_crs is_geographic transform estimate_utm_crs self file crs_type in
  is_geographic (crs out)
  = match crs_type with degress => true | meters => false end ∧
  length (rows out) = length (rows file) ∧
  to_crs is_geographic transform estimate_utm_crs self out crs_type = out.
Proof.
  intros Hvector Hdeg Hutm out. subst out. unfold to_crs. rewrite Hvector.
  destruct crs_type; destruct (is_geographic (crs file)) eqn:Hgeo;
    cbn [negb gdf_to_crs crs rows find_utm];
    rewrite ?Hutm, ?Hdeg, ?Hgeo, ?length_map; cbn [negb]; auto.
Qed.

Lemma just_read_frame (disk : Disk R T J) path c0 :
  reads_as_frame path = true →
  just_read disk (LoadGeo__init__ path c0)
  = (inr (OfFrame (frame_at disk path)),
     set_type (LoadGeo__init__ path c0) "vector").
Proof.
  unfold reads_as_frame, just_read, frame_at. cbn [file_path LoadGeo__init__].
  destruct (endswith path ".geojson" || endswith path ".shp"
            || endswith path ".gpkg")%bool; [reflexivity|].
  cbn [orb]. intros ->. reflexivity.
Qed.

Lemma just_read_other (disk : Disk R T J) path c0 :
  reads_as_frame path = false → reads_as_other path = true →
  ∃ obj, just_read disk (LoadGeo__init__ path c0)
         = (inr obj, set_type (LoadGeo__init__ path c0) "vector")
         ∧ ∀ frame, obj ≠ OfFrame frame.
Proof.
  unfold reads_as_frame, reads_as_other, just_read. cbn [file_path LoadGeo__init__].
  destruct (endswith path ".geojson" || endswith path ".shp"
            || endswith path ".gpkg")%bool; [discriminate|].
  cbn [orb]. intros -> Hother.
  destruct (endswith path ".xlsx"); [eexists; split; [reflexivity|discriminate]|].
  destruct (endswith path ".csv"); [eexists; split; [reflexivity|discriminate]|].
  destruct (endswith path ".json"); [eexists; split; [reflexivity|discriminate]|].
  destruct (endswith path ".txt"); [eexists; split; [reflexivity|discriminate]|].
  discriminate Hother.
Qed.

Lemma just_read_unsupported (disk : Disk R T J) path c0 :
  reads_as_frame path = false → reads_as_other path = false →
  just_read disk (LoadGeo__init__ path c0)
  = (inl (ValueError "Unsupported file format."), LoadGeo__init__ path c0).
Proof.
  unfold reads_as_frame, reads_as_other, just_read. cbn [file_path LoadGeo__init__].
  destruct (endswith path ".geojson" || endswith path ".shp"
            || endswith path ".gpkg")%bool; [discriminate|].
  cbn [orb]. intros -> Hother.
  destruct (endswith path ".xlsx"); [discriminate|].
  destruct (endswith path ".csv"); [discriminate|].
  destruct (endswith path ".json"); [discriminate|].
  destruct (endswith path ".txt"); [discriminate|]. reflexivity.
Qed.

Lemma load_frame (disk : Disk R T J) path c0 crs_type :
  reads_as_frame path = true →
  (load is_geographic transform estimate_utm_crs disk
        (LoadGeo__init__ path c0) (Some crs_type)).1
  = match read_crs (frame_at disk path) with
    | Some c =>
        inr (OfFrame (read_of
               (to_crs is_geographic transform estimate_utm_crs
                       (set_type (LoadGeo__init__ path c0) "vector")
                       (frame_of c (frame_at disk path)) crs_type)))
    | None => inl (AttributeError "is_geographic")
    end.
Proof.
  intros Hframe. unfold load. rewrite (just_read_frame disk path c0 Hframe).
  cbn [fst]. unfold to_crs_object. cbn [is_vector set_type type].
  destruct (read_crs (frame_at disk path)); reflexivity.
Qed.


(** A load with a conversion that returns has read a frame with a
    reference frame, and returns its conversion. *)
Lemma load_returns_converted_frame (disk : Disk R T J) path c0 crs_type obj :
  (load is_geographic transform estimate_utm_crs disk
        (LoadGeo__init__ path c0) (Some crs_type)).1 = inr obj →
  ∃ c, read_crs (frame_at disk path) = Some c ∧
       obj = OfFrame (read_of
               (to_crs is_geographic transform estimate_utm_crs
                       (set_type (LoadGeo__init__ path c0) "vector")
                       (frame_of c (frame_at disk path)) crs_type)).
Proof.
  intros Hload. destruct (reads_as_frame path) eqn:Hframe.
  - rewrite (load_frame disk path c0 crs_type Hframe) in Hload.
    destruct (read_crs (frame_at disk path)) as [c|]; [|discriminate Hload].
    injection Hload as <-. eauto.
  - exfalso. revert Hload. unfold load.
    destruct (reads_as_other path) eqn:Hoth.
    + destruct (just_read_other disk path c0 Hframe Hoth) as (o & -> & Ho).
      cbn [fst]. unfold to_crs_object. cbn [is_vector set_type type].
      destruct o as [frame| | |]; [destruct (Ho frame eq_refl)|..]; discriminate.
    + rewrite (just_read_unsupported disk path c0 Hframe Hoth). discriminate.
Qed.

(** What [load] returns for ["degress"], when it returns: a GeoDataFrame in
    a geographic reference frame, with the rows of the file in number, the
    frame of degrees of the loader being geographic; and the frame of the
    file itself when that one is geographic already. *)
Theorem load_degress_is_geographic (disk : Disk R T J) path c0 obj :
  is_geographic c0 = true →
  (load is_geographic transform estimate_utm_crs disk
        (LoadGeo__init__ path c0) (Some degress)).1 = inr obj →
  ∃ frame : GeoDataFrame R,
    obj = OfFrame (read_of frame) ∧
    is_geographic (crs frame) = true ∧
    length (rows frame) = length (read_rows (frame_at disk path)) ∧
    (∀ c, read_crs (frame_at disk path) = Some c → is_geographic c = true →
          frame = frame_of c (frame_at disk path)).
Proof.
  intros Hdeg Hload.
  apply load_returns_converted_frame in Hload as (c & Hcrs & ->).
  eexists. split; [reflexivity|].
  unfold to_crs. cbn [is_vector set_type type crs_degress LoadGeo__init__].
  cbn [String.eqb Ascii.eqb Bool.eqb andb frame_of crs].
  destruct (is_geographic c) eqn:Hgeo; cbn [negb gdf_to_crs crs rows].
  - split; [exact Hgeo|]. split; [reflexivity|].
    intros c' Hc' _. rewrite Hcrs in Hc'. injection Hc' as <-. reflexivity.
  - split; [exact Hdeg|]. split; [apply length_map|].
    intros c' Hc' Hgeo'. rewrite Hcrs in Hc'. injection Hc' as <-. congruence.
Qed.

End LoadGeoProperties.

(** * Properties of the orchestrator *)

Section OrchestratorProperties.

Context {float Polygon T J : Type}.
Variable within : Point float → Polygon → bool.
Variable is_geographic : CRS → bool.
Variable transform_tile : CRS → CRS → Tile Polygon → Tile Polygon.
Variable transform_point : CRS → CRS → Point float → Point float.
Variable utm_of_grid : GeoDataFrame (Tile Polygon) → CRS.
Variable utm_of_points : GeoDataFrame (Point float) → CRS.


Lemma to_crs_degress_geographic {R} (transform : CRS → CRS → R → R)
    (utm : GeoDataFrame R → CRS) path (file : GeoDataFrame R) :
  is_geographic 4326%N = true →
  let out := to_crs is_geographic transform utm
                    (set_type (LoadGeo__init__ path 4326%N) "vector") file degress in
  is_geographic (crs out) = true ∧ length (rows out) = length (rows file).
Proof.
  intros Hdeg out. subst out. unfold to_crs.
  cbn [is_vector set_type type crs_degress LoadGeo__init__].
  cbn [String.eqb Ascii.eqb Bool.eqb andb].
  destruct (is_geographic (crs file)) eqn:Hgeo; cbn [negb gdf_to_crs crs rows].
  - auto.
  - split; [exact Hdeg|apply length_map].
Qed.

(** What [_load_data] returns, when it returns, is a grid and a frame of
    points that are both GeoDataFrames in a geographic reference frame
    (EPSG:4326 being one): the grid has the tiles of the grid file in
    number, and the points are those of the list given inline, in order and
    tagged 4326, or as many as the file of coordinates holds. A dict without
    the key ["geometry"] makes it raise. *)
Theorem load_data_returns_geographic_frames (w : @World float Polygon T J)
    (self : Orchestrator) (coords_json : @CoordsJson float) grid_obj points_obj :
  is_geographic 4326%N = true →
  _load_data is_geographic transform_tile transform_point utm_of_grid
             utm_of_points w self coords_json
  = inr (grid_obj, points_obj) →
  ∃ srtm coords,
    grid_obj = OfFrame (read_of srtm) ∧
    points_obj = OfFrame (read_of coords) ∧
    is_geographic (crs srtm) = true ∧
    is_geographic (crs coords) = true ∧
    length (rows srtm)
    = length (read_rows (frame_at (grid_disk w) (srtm_path self))) ∧
    match coords_json with
    | OfPath path =>
        length (rows coords) = length (read_rows (frame_at (point_disk w) path))
    | OfDict (Some pairs) =>
        coords = {| crs := 4326%N;
                    rows := map (fun xy => {| geom_x := xy.1; geom_y := xy.2 |})
                                pairs |}
    | OfDict None => False
    end.
Proof.
  intros Hdeg. unfold _load_data.
  destruct (load is_geographic transform_tile utm_of_grid (grid_disk w)
                 (LoadGeo__init__ (srtm_path self) 4326%N) (Some degress)).1
    as [e|obj] eqn:Hgrid; [discriminate|].
  apply load_returns_converted_frame in Hgrid as (c & Hc & ->).
  pose proof (to_crs_degress_geographic transform_tile utm_of_grid (srtm_path self)
                (frame_of c (frame_at (grid_disk w) (srtm_path self))) Hdeg)
    as [Hgeo Hlen].
  destruct coords_json as [path|[pairs|]].
  - destruct (load is_geographic transform_point utm_of_points (point_disk w)
                   (LoadGeo__init__ path 4326%N) (Some degress)).1
      as [e|obj] eqn:Hpoints; [discriminate|].
    apply load_returns_converted_frame in Hpoints as (c' & Hc' & ->).
    pose proof (to_crs_degress_geographic transform_point utm_of_points path
                  (frame_of c' (frame_at (point_disk w) path)) Hdeg)
      as [Hgeo' Hlen'].
    intros [= <- <-]. eexists _, _. repeat split; eassumption.
  - intros [= <- <-]. eexists _, {| crs := 4326%N; rows := _ |}.
    repeat split; try eassumption.
  - discriminate.
Qed.



Lemma endswith_refl s : endswith s s = true.
Proof. destruct s; cbn [endswith]; rewrite String.eqb_refl; reflexivity. Qed.




End OrchestratorProperties.

(** * The properties on the small grid *)

Example os_path_join_relative :
  os_path_join "images" "A.gpkg" = "images/A.gpkg"
  ∧ os_path_join "images/" "A.gpkg" = "images/A.gpkg"
  ∧ os_path_join "images" "/srv/A.gpkg" = "/srv/A.gpkg".
Proof. repeat split; reflexivity. Qed.

Example sorted_keys_ascending :
  sorted_keys [Some "B"; None; Some "A"; Some "B"; Some "AB"] = ["A"; "AB"; "B"].
Proof. reflexivity. Qed.

(** Three points, the first within [tile_A] and the two others within
    [tile_B], whose raster is missing. *)
Example missing_raster_scenario :
  get in_box fs_no_B
      (resolver fs_no_B grid_AB 4326%N [pt 2 3; pt 12 4; pt 13 5] "images")
  = (inr [Some 1023%Z; None; None],
     [Sample "images/A.gpkg" [(2%Z, 3%Z)];
      Printed "⚠️ Raster not found: images/B.gpkg"]).
Proof. reflexivity. Qed.









Lemma C6_witness :
  get in_box fs_full (with_frames 4674%N 4326%N run_covered)
  = get in_box fs_full run_covered ∧
  (∃ res log,
     get in_box fs_full (with_frames 4674%N 4326%N run_covered) = (inr res, log)) ∧
  to_crs demo_geographic demo_transform demo_utm demo_loader
         (points_of 4674%N [pt 2 3]) degress
  = points_of 4674%N [pt 2 3].
Proof.
  apply (C6_frames_are_not_compared in_box fs_full run_covered 4674%N 4326%N
           demo_geographic demo_transform demo_utm demo_loader
           (points_of 4674%N [pt 2 3])); reflexivity.
Defined.

(** C6, as stated, fails: the points come out of the loader tagged 4674,
    the grid is tagged 4326, and [get] matches them and returns. *)
Lemma C6_counterexample :
  let points := to_crs demo_geographic demo_transform demo_utm demo_loader
                       (points_of 4674%N [pt 2 3]) degress in
  crs points ≠ crs grid_AB ∧
  get in_box fs_full (__init__ fs_full grid_AB points "images")
  = (inr [Some 1023%Z], [Sample "images/A.gpkg" [(2%Z, 3%Z)]]).
Proof. split; [discriminate|reflexivity]. Qed.


Lemma C8_witness :
  get in_box fs_full (resolver fs_full grid_AB 4326%N [] "images") = (inr [], [])
  ∧ get in_box fs_full (run_single []) = (inr [], [Sample "dem.tif" []]).
Proof.
  split.
  - apply (C8_empty_input in_box fs_full
             (resolver fs_full grid_AB 4326%N [] "images")).
    + reflexivity.
    + left. reflexivity.
  - apply (C8_empty_input in_box fs_full (run_single [])).
    + reflexivity.
    + right. reflexivity.
Defined.

(** C8, as stated, fails in single-resource mode: on an empty sequence of
    points [get] raises when the raster is missing, and calls the sampler
    once when it is there. *)
Lemma C8_counterexample :
  rows (coords (run_single_missing [])) = [] ∧
  get in_box fs_full (run_single_missing [])
  = (inl (FileNotFoundError "Raster file not found: nowhere.tif"), []) ∧
  sampler_calls (get in_box fs_full (run_single [])).2 = [("dem.tif", [])].
Proof. repeat split; reflexivity. Qed.

Lemma C9_witness :
  ∃ vals,
    value_from_src [(2%Z, 3%Z); (30%Z, 30%Z)] (rasterio_open fs_full "dem.tif")
    = (inr vals, [Sample "dem.tif" [(2%Z, 3%Z); (30%Z, 30%Z)]]) ∧
    get in_box fs_full (run_single [pt 2 3; pt 30 30])
    = (inr (map Some vals), [Sample "dem.tif" [(2%Z, 3%Z); (30%Z, 30%Z)]]) ∧
    length vals = 2 ∧
    ∀ i p, rows (coords (run_single [pt 2 3; pt 30 30])) !! i = Some p →
      vals !! i = Some (raster_data fs_full "dem.tif" (geom_x p, geom_y p)).1.
Proof.
  apply (C9_single_raster_one_call in_box fs_full
           (run_single [pt 2 3; pt 30 30])); reflexivity.
Defined.

Lemma C10_witness :
  get in_box fs_full (run_single_missing [pt 2 3])
  = (inl (FileNotFoundError "Raster file not found: nowhere.tif"), []) ∧
  get in_box fs_full (run_single_missing [])
  = (inl (FileNotFoundError "Raster file not found: nowhere.tif"), []).
Proof.
  split.
  - apply (C10_single_raster_missing in_box fs_full (run_single_missing [pt 2 3]));
      reflexivity.
  - apply (C10_single_raster_missing in_box fs_full (run_single_missing []));
      reflexivity.
Defined.

(** * The further properties on the small grid and on the installation *)





Lemma raster_path_of_injective_witness :
  raster_path_of "images" "A" = "images/A.gpkg" ∧ "A" = "A".
Proof.
  split; [reflexivity|].
  apply (raster_path_of_injective "images" "A" "A"); reflexivity.
Defined.

Lemma to_crs_normalizes_witness :
  let out := to_crs demo_geographic demo_transform demo_utm demo_loader
                    (points_of 32723%N [pt 2 3]) degress in
  demo_geographic (crs out) = true ∧
  length (rows out) = 1 ∧
  to_crs demo_geographic demo_transform demo_utm demo_loader out degress = out.
Proof.
  apply (to_crs_normalizes demo_geographic demo_transform demo_utm demo_loader
           (points_of 32723%N [pt 2 3]) degress);
    [reflexivity|reflexivity|intros frame; reflexivity].
Defined.

Lemma load_degress_is_geographic_witness :
  ∃ frame : GeoDataFrame (Point Z),
    OfFrame (T:=unit) (J:=unit) (read_of (points_of 4674%N [pt 2 3; pt 12 4]))
    = OfFrame (read_of frame) ∧
    demo_geographic (crs frame) = true ∧
    length (rows frame) = 2 ∧
    (∀ c, Some 4674%N = Some c → demo_geographic c = true →
          frame = frame_of c (frame_at demo_point_disk "points.gpkg")).
Proof.
  apply (load_degress_is_geographic demo_geographic demo_transform demo_utm
           demo_point_disk "points.gpkg" 4326%N); reflexivity.
Defined.

Lemma load_data_returns_geographic_frames_witness :
  ∃ srtm coords,
    OfFrame (T:=unit) (J:=unit) (read_of grid_AB) = OfFrame (read_of srtm) ∧
    OfFrame (T:=unit) (J:=unit) (read_of (points_of 4674%N [pt 2 3; pt 12 4]))
    = OfFrame (read_of coords) ∧
    demo_geographic (crs srtm) = true ∧
    demo_geographic (crs coords) = true ∧
    length (rows srtm) = 2 ∧
    length (rows coords) = 2.
Proof.
  apply (load_data_returns_geographic_frames demo_geographic tile_transform
           demo_transform grid_utm demo_utm (app_world grid_AB) (saver grid_AB)
           (OfPath "points.gpkg")); reflexivity.
Defined.


(** The formats of the loader on four names, and the orchestrator on a csv
    file and on a dict without geometry. *)
Example load_by_format :
  let outcome path :=
    (load demo_geographic demo_transform demo_utm demo_point_disk
          (LoadGeo__init__ path 4326%N) (Some degress)).1 in
  outcome "points.gpkg"
  = inr (OfFrame (read_of (points_of 4674%N [pt 2 3; pt 12 4]))) ∧
  outcome "bare.shp" = inl (AttributeError "is_geographic") ∧
  outcome "coords.csv" = inl (AttributeError "crs") ∧
  outcome "coords.json" = inl (AttributeError "crs") ∧
  outcome "coords.GPKG" = inl (ValueError "Unsupported file format.").
Proof. repeat split; reflexivity. Qed.

Example process_rejects_before_sampling :
  app_process grid_AB (saver grid_AB) (OfPath "coords.csv")
  = (inl (AttributeError "crs"), []) ∧
  app_process grid_AB (saver grid_AB) (OfDict None)
  = (inl (TypeError "'NoneType' object is not iterable"), []).
Proof. split; reflexivity. Qed.
